(** * mutagen/_tags.py: padding policy and the abstract Metadata base class

    A shallow embedding of [mutagen._tags]: the [PaddingInfo] value object
    with its default padding heuristic and callback protocol, and the
    abstract [Metadata] class whose [load], [save] and [delete] must be
    overridden.

    Python integers are unbounded, so they are [Z]; Python's [//] is floor
    division, which is [Z.div].  A raised exception is the [Raise] case of
    [result].  Instance attributes of a [Metadata] object are a finite map
    from attribute names to values, threaded explicitly through the methods. *)

From Stdlib Require Import ZArith Lia Ascii.
From Stdlib Require DecimalString DecimalZ DecimalPos.
From stdpp Require Import base gmap strings.

Local Open Scope Z_scope.

(** ** Exceptions and results *)

(** The two exception classes the module raises.  [ValueError] carries its
    message, since the constructor of [PaddingInfo] raises it for two
    different reasons. *)
Inductive exn : Type :=
  | ValueError (msg : string)
  | NotImplementedError.

Inductive result (A : Type) : Type :=
  | Ok (a : A)
  | Raise (e : exn).

Arguments Ok {A} a.
Arguments Raise {A} e.

Definition is_Ok {A : Type} (r : result A) : Prop :=
  match r with Ok _ => True | Raise _ => False end.

(** [ValueError("Invalid padding")] and [ValueError("Invalid filesize")]. *)
Definition InvalidPadding : exn := ValueError "Invalid padding".
Definition InvalidFilesize : exn := ValueError "Invalid filesize".

(** ** class PaddingInfo *)

Module PaddingInfo.

(** The two instance attributes set by [__init__]. *)
Record t : Type := mk { padding : Z; size : Z }.

(** [PaddingInfo.__init__(self, padding, filesize)], lines 39-48.  The
    object exists for the caller only when no exception is raised. *)
Definition __init__ (padding filesize : Z) : result t :=
  if filesize >=? 0 then
    let size := filesize - padding in
    if size <? 0 then Raise (ValueError "Invalid padding")
    else Ok (mk padding size)
  else if filesize =? -1 then
    Ok (mk padding (-1))
  else Raise (ValueError "Invalid filesize").

(** Lines 59-63: the local variables [high] and [low] after the
    size-dependent adjustment, as the pair [(high, low)]. *)
Definition thresholds (self : t) : Z * Z :=
  let high := 1024 * 5 in
  let low := 1024 in
  if negb (size self =? -1) then
    (high + size self / 40, low + size self / 200)
  else (high, low).

(** [PaddingInfo.get_default_padding(self)], lines 50-74. *)
Definition get_default_padding (self : t) : Z :=
  let '(high, low) := thresholds self in
  if padding self >=? 0 then
    if padding self >? high then low
    else padding self
  else low.

(** [PaddingInfo._get_padding(self, user_func)], lines 76-80.  The
    callback is [None] or a function of the object; a callback may raise,
    so it returns a [result]. *)
Definition _get_padding (self : t) (user_func : option (t -> result Z))
  : result Z :=
  match user_func with
  | None => Ok (get_default_padding self)
  | Some f => f self
  end.

(** The callback of the class docstring, lines 17-18:
    [def my_callback(info): return info.get_default_padding()]. *)
Definition my_callback (info : t) : result Z :=
  Ok (get_default_padding info).

(** The [%d] conversion of a Python int: decimal digits, with a leading
    minus sign for a negative number. *)
Definition format_d (n : Z) : string :=
  DecimalString.NilZero.string_of_int (Z.to_int n).

(** [PaddingInfo.__repr__(self)], lines 82-84; [type_name] is
    [type(self).__name__], which is "PaddingInfo" unless a subclass is
    instantiated. *)
Definition __repr__ (type_name : string) (self : t) : string :=
  "<" +:+ type_name +:+ " size=" +:+ format_d (size self)
  +:+ " padding=" +:+ format_d (padding self) +:+ ">".

End PaddingInfo.

(** ** class Metadata *)

(** The Python values that reach the methods as arguments.  The methods of
    the base class never inspect them. *)
Inductive pyval : Type :=
  | PyNone
  | PyBool (b : bool)
  | PyInt (n : Z)
  | PyStr (s : string).

Module Metadata.

(** A method body runs on the instance's attribute dictionary and either
    returns or raises; the dictionary it leaves behind is returned in both
    cases, so that work done before an exception stays visible. *)
Definition M (A : Type) : Type :=
  gmap string pyval -> result A * gmap string pyval.

Definition ret {A : Type} (a : A) : M A := fun self => (Ok a, self).
Definition raise {A : Type} (e : exn) : M A := fun self => (Raise e, self).

(** The method table that [self.load], [self.save] and [self.delete]
    dispatch through: a subclass replaces entries. *)
Record class : Type := {
  cls_load : list pyval -> gmap string pyval -> M unit;
  cls_save : pyval -> M unit;
  cls_delete : pyval -> M unit
}.

(** Truth value of the [args] tuple and of the [kwargs] dict: both are
    false exactly when empty. *)
Definition tuple_truth (args : list pyval) : bool :=
  match args with
  | [] => false
  | _ :: _ => true
  end.

Definition dict_truth (kwargs : gmap string pyval) : bool :=
  negb (Nat.eqb (size kwargs) 0).

(** [Metadata.load(self, args..., kwargs...)], lines 99-100. *)
Definition load (args : list pyval) (kwargs : gmap string pyval) : M unit :=
  raise NotImplementedError.

(** [Metadata.save(self, filename=None)], lines 102-105; a call without
    the argument passes [PyNone]. *)
Definition save (filename : pyval) : M unit :=
  raise NotImplementedError.

(** [Metadata.delete(self, filename=None)], lines 107-110. *)
Definition delete (filename : pyval) : M unit :=
  raise NotImplementedError.

(** The class [Metadata] itself, with nothing overridden. *)
Definition base : class :=
  {| cls_load := load; cls_save := save; cls_delete := delete |}.

(** [Metadata.__init__(self, args..., kwargs...)], lines 95-97, inherited by
    every subclass [cls]; [self.load] is looked up in [cls]. *)
Definition __init__ (cls : class)
    (args : list pyval) (kwargs : gmap string pyval) : M unit :=
  if tuple_truth args || dict_truth kwargs then cls_load cls args kwargs
  else ret tt.

(** Calling the class [cls] with [args] and [kwargs]: a fresh instance has no attributes of its
    own when [__init__] starts. *)
Definition construct (cls : class)
    (args : list pyval) (kwargs : gmap string pyval)
  : result unit * gmap string pyval :=
  __init__ cls args kwargs ∅.

End Metadata.

(** ** The thresholds as the specification words them *)

(** High and low marks with division truncating toward zero ([Z.quot]),
    for comparison with [PaddingInfo.thresholds], which floors. *)
Definition spec_high (size : Z) : Z :=
  5120 + (if size =? -1 then 0 else size ÷ 40).

Definition spec_low (size : Z) : Z :=
  1024 + (if size =? -1 then 0 else size ÷ 200).

(** ** Characters of a string *)

(** [absent c s]: the character [c] does not occur in [s]. *)
Fixpoint absent (c : Ascii.ascii) (s : string) : Prop :=
  match s with
  | EmptyString => True
  | String a s' => a <> c /\ absent c s'
  end.

(** ** Auxiliary facts *)

(** Case analysis on the integer comparisons of the goal. *)
Ltac cmp_cases :=
  repeat match goal with
  | |- context [?a >=? ?b] => rewrite (Z.geb_leb a b)
  | |- context [?a >? ?b] => rewrite (Z.gtb_ltb a b)
  | |- context [?a <=? ?b] => destruct (Z.leb_spec a b)
  | |- context [?a <? ?b] => destruct (Z.ltb_spec a b)
  | |- context [?a =? ?b] => destruct (Z.eqb_spec a b)
  end.

(** The constructor as one decision on [filesize] and [filesize - padding]. *)
Lemma init_cases (padding filesize : Z) :
  (0 <= filesize /\ 0 <= filesize - padding /\
   PaddingInfo.__init__ padding filesize
   = Ok (PaddingInfo.mk padding (filesize - padding)))
  \/ (0 <= filesize /\ filesize - padding < 0 /\
      PaddingInfo.__init__ padding filesize = Raise InvalidPadding)
  \/ (filesize = -1 /\
      PaddingInfo.__init__ padding filesize = Ok (PaddingInfo.mk padding (-1)))
  \/ (filesize < -1 /\
      PaddingInfo.__init__ padding filesize = Raise InvalidFilesize).
Proof.
  unfold PaddingInfo.__init__, InvalidPadding, InvalidFilesize.
  cbv zeta. cmp_cases; try lia.
  - right; left; auto.
  - left; auto.
  - right; right; left; auto.
  - right; right; right; split; [lia | reflexivity].
Qed.

(** What a constructed object looks like. *)
Lemma init_Ok_inv (padding filesize : Z) (d : PaddingInfo.t) :
  PaddingInfo.__init__ padding filesize = Ok d ->
  PaddingInfo.padding d = padding /\
  ((filesize = -1 /\ PaddingInfo.size d = -1) \/
   (0 <= filesize /\ PaddingInfo.size d = filesize - padding /\
    0 <= PaddingInfo.size d)).
Proof.
  intros H.
  destruct (init_cases padding filesize)
    as [(Hf & Hs & E) | [(Hf & Hs & E) | [(Hf & E) | (Hf & E)]]];
    rewrite E in H; inversion H; subst; cbn; auto.
Qed.

(** On a known, non-negative size the floor division of the code and the
    truncating division of the specification give the same thresholds. *)
Lemma thresholds_spec (d : PaddingInfo.t) :
  PaddingInfo.size d = -1 \/ 0 <= PaddingInfo.size d ->
  PaddingInfo.thresholds d
  = (spec_high (PaddingInfo.size d), spec_low (PaddingInfo.size d)).
Proof.
  unfold PaddingInfo.thresholds, spec_high, spec_low. cbv zeta.
  intros [E | Hs].
  - rewrite E. reflexivity.
  - destruct (Z.eqb_spec (PaddingInfo.size d) (-1)) as [E | _]; [lia |].
    cbn [negb]. rewrite !Z.quot_div_nonneg by lia. reflexivity.
Qed.

Lemma spec_low_ge (size : Z) : size = -1 \/ 0 <= size -> 1024 <= spec_low size.
Proof.
  unfold spec_low. intros [E | Hs].
  - rewrite E. cbn. lia.
  - destruct (Z.eqb_spec size (-1)); [lia |].
    assert (0 <= size ÷ 200) by (apply Z.quot_pos; lia). lia.
Qed.

(** Thresholds of a known size, in the code's own floor division. *)
Lemma thresholds_known (p s : Z) :
  0 <= s ->
  PaddingInfo.thresholds (PaddingInfo.mk p s)
  = (5120 + s / 40, 1024 + s / 200).
Proof.
  intros Hs. unfold PaddingInfo.thresholds. cbn.
  destruct (Z.eqb_spec s (-1)); [lia | reflexivity].
Qed.

(** A deficit always yields the low mark. *)
Lemma default_padding_deficit (d : PaddingInfo.t) :
  PaddingInfo.padding d < 0 ->
  PaddingInfo.get_default_padding d = snd (PaddingInfo.thresholds d).
Proof.
  intros Hp. unfold PaddingInfo.get_default_padding.
  destruct (PaddingInfo.thresholds d) as [high low]. cbn.
  cmp_cases; first [reflexivity | lia].
Qed.

(** The empty keyword dictionary is the only false one. *)
Lemma dict_truth_false (kwargs : gmap string pyval) :
  Metadata.dict_truth kwargs = false <-> kwargs = ∅.
Proof.
  unfold Metadata.dict_truth. rewrite negb_false_iff, Nat.eqb_eq.
  apply map_size_empty_iff.
Qed.

Lemma tuple_truth_false (args : list pyval) :
  Metadata.tuple_truth args = false <-> args = [].
Proof. destruct args; cbn; split; congruence. Qed.

(** ** The heuristic on concrete files *)

Example default_padding_deficit_unknown :
  PaddingInfo.get_default_padding (PaddingInfo.mk (-5) (-1)) = 1024.
Proof. reflexivity. Qed.

Example default_padding_excess_unknown :
  PaddingInfo.get_default_padding (PaddingInfo.mk 10000 (-1)) = 1024.
Proof. reflexivity. Qed.

Example default_padding_keep_known :
  PaddingInfo.__init__ 2000 100000 = Ok (PaddingInfo.mk 2000 98000)
  /\ PaddingInfo.thresholds (PaddingInfo.mk 2000 98000) = (7570, 1514)
  /\ PaddingInfo.get_default_padding (PaddingInfo.mk 2000 98000) = 2000.
Proof. repeat split. Qed.

Example default_padding_shrink_known :
  PaddingInfo.__init__ 8000 100000 = Ok (PaddingInfo.mk 8000 92000)
  /\ PaddingInfo.thresholds (PaddingInfo.mk 8000 92000) = (7420, 1484)
  /\ PaddingInfo.get_default_padding (PaddingInfo.mk 8000 92000) = 1484.
Proof. repeat split. Qed.

(** Floor and truncating division part ways only on a negative size other
    than -1, which the constructor never stores. *)
Example floor_differs_on_negative_size :
  PaddingInfo.thresholds (PaddingInfo.mk 0 (-50)) = (5118, 1023)
  /\ (spec_high (-50), spec_low (-50)) = (5119, 1024)
  /\ (forall padding filesize,
        PaddingInfo.__init__ padding filesize
        <> Ok (PaddingInfo.mk 0 (-50))).
Proof.
  split; [reflexivity |]. split; [reflexivity |].
  intros padding filesize H. apply init_Ok_inv in H. cbn in H. lia.
Qed.

(** ** Construction of PaddingInfo *)

(** C1: for every integer padding and every filesize >= 0, the constructor
    succeeds if and only if filesize - padding >= 0; on success the stored
    size is filesize - padding (and the stored padding is the argument);
    when filesize - padding < 0 it raises ValueError("Invalid padding") and
    yields no object. *)
Theorem init_known_filesize (padding filesize : Z) :
  0 <= filesize ->
  (is_Ok (PaddingInfo.__init__ padding filesize) <-> 0 <= filesize - padding)
  /\ (forall d, PaddingInfo.__init__ padding filesize = Ok d ->
        PaddingInfo.size d = filesize - padding /\
        PaddingInfo.padding d = padding)
  /\ (0 <= filesize - padding ->
        PaddingInfo.__init__ padding filesize
        = Ok (PaddingInfo.mk padding (filesize - padding)))
  /\ (filesize - padding < 0 ->
        PaddingInfo.__init__ padding filesize = Raise InvalidPadding).
Proof.
  intros Hf.
  destruct (init_cases padding filesize)
    as [(_ & Hs & E) | [(_ & Hs & E) | [(Hm & _) | (Hm & _)]]]; try lia.
  - rewrite E. cbn. split; [tauto |]. split; [| split; [reflexivity | lia]].
    intros d H. inversion H. split; reflexivity.
  - rewrite E. cbn. split; [split; [tauto | lia] |].
    split; [intros d H; discriminate H |]. split; [lia | reflexivity].
Qed.

Lemma init_known_filesize_witness :
  0 <= 100
  /\ PaddingInfo.__init__ 30 100 = Ok (PaddingInfo.mk 30 70)
  /\ PaddingInfo.size (PaddingInfo.mk 30 70) = 100 - 30
  /\ 0 <= 10
  /\ PaddingInfo.__init__ 30 10 = Raise InvalidPadding
  /\ ~ is_Ok (PaddingInfo.__init__ 30 10).
Proof.
  split; [lia |].
  destruct (init_known_filesize 30 100 ltac:(lia)) as (_ & Hsz & Hok & _).
  split; [apply Hok; lia |].
  split; [apply (Hsz (PaddingInfo.mk 30 70)); apply Hok; lia |].
  split; [lia |].
  destruct (init_known_filesize 30 10 ltac:(lia)) as (Hiff & _ & _ & Herr).
  split; [apply Herr; lia |].
  intros H. apply Hiff in H. lia.
Defined.

(** C6: with filesize = -1 the constructor succeeds for every integer
    padding, negative ones included, and the size field is -1. *)
Theorem init_unknown_filesize (padding : Z) :
  PaddingInfo.__init__ padding (-1) = Ok (PaddingInfo.mk padding (-1))
  /\ PaddingInfo.size (PaddingInfo.mk padding (-1)) = -1.
Proof. split; reflexivity. Qed.

(** C7: the constructor raises ValueError("Invalid filesize") exactly when
    filesize < -1, whatever the padding. *)
Theorem init_invalid_filesize (padding filesize : Z) :
  PaddingInfo.__init__ padding filesize = Raise InvalidFilesize
  <-> filesize < -1.
Proof.
  destruct (init_cases padding filesize)
    as [(Hf & _ & E) | [(Hf & _ & E) | [(Hf & E) | (Hf & E)]]];
    rewrite E; unfold InvalidPadding, InvalidFilesize;
    split; intros H; try discriminate H; try lia; reflexivity.
Qed.

Lemma init_invalid_filesize_witness :
  PaddingInfo.__init__ 7 (-2) = Raise InvalidFilesize
  /\ (PaddingInfo.__init__ 7 (-1) = Raise InvalidFilesize -> False).
Proof.
  split.
  - apply (init_invalid_filesize 7 (-2)). lia.
  - intros H. apply (init_invalid_filesize 7 (-1)) in H. lia.
Defined.

(** C10: every constructed object has size = -1 or size >= 0.  So in
    get_default_padding the guard size != -1 in front of size // 40 and
    size // 200 lets only a non-negative size through: either the size is
    -1, no division is made and the marks are 5120 and 1024, or the size
    is >= 0 and the marks are 5120 + size // 40 and 1024 + size // 200,
    with both quotients non-negative and equal to the truncated ones; the
    default padding is the existing padding when it lies between 0 and
    that high mark, and that low mark otherwise.  And a negative padding
    with filesize >= 0 is accepted, with filesize - padding > filesize
    >= 0, so it never raises "Invalid padding". *)
Theorem init_size_invariant (padding filesize : Z) :
  (forall d, PaddingInfo.__init__ padding filesize = Ok d ->
     (PaddingInfo.size d = -1 \/ 0 <= PaddingInfo.size d)
     /\ (negb (PaddingInfo.size d =? -1) = true -> 0 <= PaddingInfo.size d)
     /\ ((PaddingInfo.size d = -1
          /\ PaddingInfo.thresholds d = (5120, 1024)
          /\ PaddingInfo.get_default_padding d
             = if (0 <=? PaddingInfo.padding d)
                  && (PaddingInfo.padding d <=? 5120)
               then PaddingInfo.padding d else 1024)
         \/ (0 <= PaddingInfo.size d
             /\ PaddingInfo.thresholds d
                = (5120 + PaddingInfo.size d / 40,
                   1024 + PaddingInfo.size d / 200)
             /\ 0 <= PaddingInfo.size d / 40
             /\ 0 <= PaddingInfo.size d / 200
             /\ PaddingInfo.size d / 40 = PaddingInfo.size d ÷ 40
             /\ PaddingInfo.size d / 200 = PaddingInfo.size d ÷ 200
             /\ PaddingInfo.get_default_padding d
                = if (0 <=? PaddingInfo.padding d)
                     && (PaddingInfo.padding d
                         <=? 5120 + PaddingInfo.size d / 40)
                  then PaddingInfo.padding d
                  else 1024 + PaddingInfo.size d / 200)))
  /\ (padding < 0 -> 0 <= filesize ->
        filesize < filesize - padding
        /\ PaddingInfo.__init__ padding filesize
           = Ok (PaddingInfo.mk padding (filesize - padding))
        /\ PaddingInfo.__init__ padding filesize <> Raise InvalidPadding).
Proof.
  split.
  - intros [p s] H. apply init_Ok_inv in H. cbn in H.
    destruct H as (_ & [(_ & E) | (_ & _ & Hs)]).
    + subst s. cbn [PaddingInfo.size PaddingInfo.padding].
      split; [left; reflexivity |]. split; [cbn; discriminate |].
      left. split; [reflexivity |]. split; [reflexivity |].
      unfold PaddingInfo.get_default_padding.
      change (PaddingInfo.thresholds (PaddingInfo.mk p (-1)))
        with (5120, 1024).
      cbn [PaddingInfo.padding]. cmp_cases; cbn; lia.
    + cbn [PaddingInfo.size PaddingInfo.padding].
      split; [right; exact Hs |]. split; [intros _; exact Hs |].
      right. split; [exact Hs |].
      split; [apply thresholds_known; exact Hs |].
      split; [apply Z.div_pos; lia |]. split; [apply Z.div_pos; lia |].
      split; [symmetry; apply Z.quot_div_nonneg; lia |].
      split; [symmetry; apply Z.quot_div_nonneg; lia |].
      unfold PaddingInfo.get_default_padding.
      rewrite thresholds_known by exact Hs.
      cbn [PaddingInfo.padding]. cmp_cases; cbn; lia.
  - intros Hp Hf. split; [lia |].
    destruct (init_cases padding filesize)
      as [(_ & _ & E) | [(_ & Hs & _) | [(Hm & _) | (Hm & _)]]]; try lia.
    rewrite E. split; [reflexivity | discriminate].
Qed.

Lemma init_size_invariant_witness :
  PaddingInfo.__init__ (-5) 100 = Ok (PaddingInfo.mk (-5) 105)
  /\ 0 <= PaddingInfo.size (PaddingInfo.mk (-5) 105)
  /\ PaddingInfo.thresholds (PaddingInfo.mk (-5) 105) = (5122, 1024)
  /\ PaddingInfo.get_default_padding (PaddingInfo.mk (-5) 105) = 1024
  /\ PaddingInfo.thresholds (PaddingInfo.mk 7 (-1)) = (5120, 1024)
  /\ PaddingInfo.get_default_padding (PaddingInfo.mk 7 (-1)) = 7
  /\ PaddingInfo.__init__ (-5) 100 <> Raise InvalidPadding.
Proof.
  destruct (init_size_invariant (-5) 100) as [Hinv Hneg].
  destruct Hneg as (_ & Hok & Hne); [lia | lia |].
  split; [exact Hok |].
  destruct (Hinv _ Hok) as (_ & Hguard & Hth).
  split; [apply Hguard; reflexivity |].
  destruct Hth as [(E & _) | (_ & Et & _ & _ & _ & _ & Eg)];
    [discriminate E |].
  split; [exact Et |]. split; [exact Eg |].
  destruct (init_size_invariant 7 (-1)) as [Hinv' _].
  destruct (Hinv' (PaddingInfo.mk 7 (-1)) eq_refl) as (_ & _ & Hth').
  destruct Hth' as [(_ & Et' & Eg') | (Hs & _)]; [| cbn in Hs; lia].
  split; [exact Et' |]. split; [exact Eg' |]. exact Hne.
Defined.

(** ** The default padding heuristic *)

(** C2: on a constructed object, with high = 5120 plus size/40 (division
    truncating toward zero) when size != -1, the default padding is the
    existing padding itself whenever 0 <= padding <= high, and is at least
    1024 in every other case. *)
Theorem default_padding_bounds (padding filesize : Z) (d : PaddingInfo.t) :
  PaddingInfo.__init__ padding filesize = Ok d ->
  (0 <= PaddingInfo.padding d <= spec_high (PaddingInfo.size d) ->
     PaddingInfo.get_default_padding d = PaddingInfo.padding d)
  /\ (~ 0 <= PaddingInfo.padding d <= spec_high (PaddingInfo.size d) ->
        1024 <= PaddingInfo.get_default_padding d).
Proof.
  intros H. apply init_Ok_inv in H. destruct H as (_ & Hsize).
  assert (Hinv : PaddingInfo.size d = -1 \/ 0 <= PaddingInfo.size d)
    by (destruct Hsize as [(_ & E) | (_ & _ & Hs)]; auto).
  pose proof (spec_low_ge _ Hinv) as Hlow.
  unfold PaddingInfo.get_default_padding.
  rewrite (thresholds_spec d Hinv).
  split; intros Hp; cmp_cases; lia.
Qed.

Lemma default_padding_bounds_witness :
  PaddingInfo.__init__ 2000 100000 = Ok (PaddingInfo.mk 2000 98000)
  /\ PaddingInfo.get_default_padding (PaddingInfo.mk 2000 98000) = 2000
  /\ PaddingInfo.get_default_padding (PaddingInfo.mk 10 90) = 10
  /\ 1024 <= PaddingInfo.get_default_padding (PaddingInfo.mk 8000 92000).
Proof.
  split; [reflexivity |].
  split; [| split].
  - apply (default_padding_bounds 2000 100000 (PaddingInfo.mk 2000 98000));
      [reflexivity | vm_compute; split; discriminate].
  - apply (default_padding_bounds 10 100 (PaddingInfo.mk 10 90));
      [reflexivity | vm_compute; split; discriminate].
  - apply (default_padding_bounds 8000 100000 (PaddingInfo.mk 8000 92000));
      [reflexivity |].
    vm_compute. intros [_ Hle]. apply Hle. reflexivity.
Defined.

(** C4, as the code has it: the object built from padding = 0 and
    filesize = -1 keeps its padding, so the default padding is 0. *)
Theorem default_padding_zero_unknown :
  PaddingInfo.__init__ 0 (-1) = Ok (PaddingInfo.mk 0 (-1))
  /\ PaddingInfo.get_default_padding (PaddingInfo.mk 0 (-1)) = 0.
Proof. split; reflexivity. Qed.

(** C4 as stated fails: the default padding of that object is not 1024. *)
Lemma zero_padding_default_is_not_1024 :
  ~ (forall d, PaddingInfo.__init__ 0 (-1) = Ok d ->
       PaddingInfo.get_default_padding d = 1024).
Proof.
  intros H. specialize (H (PaddingInfo.mk 0 (-1)) eq_refl).
  vm_compute in H. discriminate H.
Qed.

(** C5: for 0 <= s1 <= s2 the low mark is 1024 + s/200 and the high mark
    5120 + s/40 (integer division), both non-decreasing from s1 to s2; and
    for a negative padding the default padding is non-decreasing too. *)
Theorem thresholds_monotone (p s1 s2 : Z) :
  0 <= s1 <= s2 ->
  let t1 := PaddingInfo.thresholds (PaddingInfo.mk p s1) in
  let t2 := PaddingInfo.thresholds (PaddingInfo.mk p s2) in
  t1 = (5120 + s1 / 40, 1024 + s1 / 200)
  /\ t2 = (5120 + s2 / 40, 1024 + s2 / 200)
  /\ snd t1 <= snd t2
  /\ fst t1 <= fst t2
  /\ (p < 0 ->
        PaddingInfo.get_default_padding (PaddingInfo.mk p s1)
        <= PaddingInfo.get_default_padding (PaddingInfo.mk p s2)).
Proof.
  intros [H1 H12] t1 t2. subst t1 t2.
  assert (Hlow : s1 / 200 <= s2 / 200) by (apply Z.div_le_mono; lia).
  assert (Hhigh : s1 / 40 <= s2 / 40) by (apply Z.div_le_mono; lia).
  split; [apply thresholds_known; lia |].
  split; [apply thresholds_known; lia |].
  rewrite !thresholds_known by lia. cbn [fst snd].
  split; [lia |]. split; [lia |].
  intros Hp. rewrite !default_padding_deficit by exact Hp.
  rewrite !thresholds_known by lia. cbn [snd]. lia.
Qed.

Lemma thresholds_monotone_witness :
  PaddingInfo.thresholds (PaddingInfo.mk (-5) 399) = (5129, 1025)
  /\ PaddingInfo.thresholds (PaddingInfo.mk (-5) 400) = (5130, 1026)
  /\ PaddingInfo.get_default_padding (PaddingInfo.mk (-5) 399)
     <= PaddingInfo.get_default_padding (PaddingInfo.mk (-5) 400).
Proof.
  destruct (thresholds_monotone (-5) 399 400 ltac:(lia))
    as (E1 & E2 & _ & _ & Hmono).
  split; [exact E1 |]. split; [exact E2 |]. apply Hmono. lia.
Defined.

(** ** The callback protocol *)

(** C3: without a callback the result is the default padding; with a
    callback f the result is f applied to the object, as it is: whatever f
    returns or raises, and whatever the default padding would have been. *)
Theorem get_padding_override (d : PaddingInfo.t) :
  PaddingInfo._get_padding d None = Ok (PaddingInfo.get_default_padding d)
  /\ (forall f : PaddingInfo.t -> result Z,
        PaddingInfo._get_padding d (Some f) = f d).
Proof. split; [reflexivity | intros f; reflexivity]. Qed.

(** ** The abstract Metadata class *)

(** C8: load, save and delete of the class with nothing overridden raise
    NotImplementedError for every argument and every instance, and leave
    the instance's attributes as they were. *)
Theorem abstract_methods_raise
    (args : list pyval) (kwargs : gmap string pyval) (filename : pyval)
    (self : gmap string pyval) :
  Metadata.cls_load Metadata.base args kwargs self
  = (Raise NotImplementedError, self)
  /\ Metadata.cls_save Metadata.base filename self
     = (Raise NotImplementedError, self)
  /\ Metadata.cls_delete Metadata.base filename self
     = (Raise NotImplementedError, self).
Proof. repeat split. Qed.

(** C9: for every class inheriting the constructor, construction without
    arguments returns normally and leaves the instance untouched, whatever
    its load would do; construction with at least one positional or keyword
    argument is the call of its load on the same arguments; so on the class
    with nothing overridden it raises NotImplementedError. *)
Theorem init_calls_load
    (cls : Metadata.class) (args : list pyval) (kwargs : gmap string pyval)
    (self : gmap string pyval) :
  Metadata.__init__ cls [] ∅ self = (Ok tt, self)
  /\ (args <> [] \/ kwargs <> ∅ ->
        Metadata.__init__ cls args kwargs self
        = Metadata.cls_load cls args kwargs self
        /\ Metadata.__init__ Metadata.base args kwargs self
           = (Raise NotImplementedError, self)).
Proof.
  split; [reflexivity |].
  intros Hne. unfold Metadata.__init__.
  destruct (Metadata.tuple_truth args || Metadata.dict_truth kwargs) eqn:E.
  - split; reflexivity.
  - apply orb_false_iff in E. destruct E as [Ea Ek].
    apply tuple_truth_false in Ea. apply dict_truth_false in Ek. tauto.
Qed.

Lemma init_calls_load_witness :
  Metadata.construct Metadata.base [] ∅ = (Ok tt, ∅)
  /\ Metadata.construct Metadata.base [PyStr "song.ogg"] ∅
     = (Raise NotImplementedError, ∅)
  /\ Metadata.construct Metadata.base [] {[ "filename" := PyStr "song.ogg" ]}
     = (Raise NotImplementedError, ∅).
Proof.
  unfold Metadata.construct.
  split; [apply (init_calls_load Metadata.base [] ∅ ∅) |].
  split.
  - apply (init_calls_load Metadata.base [PyStr "song.ogg"] ∅ ∅).
    left. discriminate.
  - apply (init_calls_load Metadata.base []
             {[ "filename" := PyStr "song.ogg" ]} ∅).
    right. apply insert_non_empty.
Defined.


(** ** Further properties of the padding heuristic *)

(** Linear arithmetic with division by a constant. *)
Ltac div_lia := Z.to_euclidean_division_equations; lia.

Section Constructed.

Variables (padding filesize : Z) (d : PaddingInfo.t).
Hypothesis Hd : PaddingInfo.__init__ padding filesize = Ok d.

Lemma constructed_size : PaddingInfo.size d = -1 \/ 0 <= PaddingInfo.size d.
Proof.
  destruct (init_Ok_inv _ _ _ Hd) as (_ & [(_ & E) | (_ & _ & Hs)]); auto.
Qed.

(** The low mark is at least 1 KiB and the high mark at least 4 KiB above
    it. *)
Lemma thresholds_window :
  1024 <= snd (PaddingInfo.thresholds d)
  /\ snd (PaddingInfo.thresholds d) + 4096 <= fst (PaddingInfo.thresholds d).
Proof.
  unfold PaddingInfo.thresholds. cbv zeta.
  destruct constructed_size as [E | Hs].
  - rewrite E. cbn. lia.
  - destruct (Z.eqb_spec (PaddingInfo.size d) (-1)); [lia |].
    cbn [negb fst snd]. div_lia.
Qed.

(** X1: on a constructed object the default padding is never negative and
    never above the high mark, and the window between the marks is at
    least 4096 bytes wide with the low mark at least 1024. *)
Theorem default_padding_range :
  let high := fst (PaddingInfo.thresholds d) in
  let low := snd (PaddingInfo.thresholds d) in
  1024 <= low /\ low + 4096 <= high
  /\ 0 <= PaddingInfo.get_default_padding d <= high.
Proof.
  pose proof thresholds_window as (Hl & Hw).
  cbv zeta. split; [exact Hl |]. split; [exact Hw |].
  unfold PaddingInfo.get_default_padding.
  destruct (PaddingInfo.thresholds d) as [high low]. cbn [fst snd] in *.
  cmp_cases; lia.
Qed.

(** X2: on a constructed object the default padding equals the existing
    padding exactly when 0 <= padding <= high; with a non-negative
    existing padding it never asks for more than there is; and whenever it
    asks for less, more than 4096 bytes are given back. *)
Theorem default_padding_keeps_or_shrinks :
  (PaddingInfo.get_default_padding d = PaddingInfo.padding d
   <-> 0 <= PaddingInfo.padding d <= fst (PaddingInfo.thresholds d))
  /\ (0 <= PaddingInfo.padding d ->
        PaddingInfo.get_default_padding d <= PaddingInfo.padding d)
  /\ (PaddingInfo.get_default_padding d < PaddingInfo.padding d ->
        4096 < PaddingInfo.padding d - PaddingInfo.get_default_padding d).
Proof.
  pose proof thresholds_window as (Hl & Hw).
  unfold PaddingInfo.get_default_padding.
  destruct (PaddingInfo.thresholds d) as [high low]. cbn [fst snd] in *.
  cmp_cases; lia.
Qed.

(** X3: the heuristic is stable.  Saving the same content again, with the
    padding the heuristic chose (so the file size is size + that padding,
    or still unknown), builds a valid object of the same size whose
    default padding is the same amount. *)
Theorem default_padding_stable :
  let r := PaddingInfo.get_default_padding d in
  let filesize' :=
    if PaddingInfo.size d =? -1 then -1 else PaddingInfo.size d + r in
  PaddingInfo.__init__ r filesize' = Ok (PaddingInfo.mk r (PaddingInfo.size d))
  /\ PaddingInfo.get_default_padding (PaddingInfo.mk r (PaddingInfo.size d))
     = r.
Proof.
  pose proof thresholds_window as (Hl & Hw).
  assert (Hr : 0 <= PaddingInfo.get_default_padding d
               <= fst (PaddingInfo.thresholds d)).
  { unfold PaddingInfo.get_default_padding.
    destruct (PaddingInfo.thresholds d) as [high low]. cbn [fst snd] in *.
    cmp_cases; lia. }
  cbv zeta. set (r := PaddingInfo.get_default_padding d) in *. split.
  - destruct constructed_size as [E | Hs].
    + rewrite E. reflexivity.
    + destruct (Z.eqb_spec (PaddingInfo.size d) (-1)); [lia |].
      destruct (init_cases r (PaddingInfo.size d + r))
        as [(_ & _ & E) | [(_ & Hn & _) | [(Hm & _) | (Hm & _)]]]; try lia.
      rewrite E. do 2 f_equal. lia.
  - unfold PaddingInfo.get_default_padding at 1.
    change (PaddingInfo.thresholds (PaddingInfo.mk r (PaddingInfo.size d)))
      with (PaddingInfo.thresholds d).
    destruct (PaddingInfo.thresholds d) as [high low]. cbn [fst snd] in *.
    cbn [PaddingInfo.padding]. cmp_cases; lia.
Qed.

End Constructed.

Lemma default_padding_range_witness :
  0 <= PaddingInfo.get_default_padding (PaddingInfo.mk (-300) 1300) <= 5152
  /\ 0 <= PaddingInfo.get_default_padding (PaddingInfo.mk 9000 (-1)) <= 5120.
Proof.
  split.
  - apply (default_padding_range (-300) 1000 (PaddingInfo.mk (-300) 1300)).
    reflexivity.
  - apply (default_padding_range 9000 (-1) (PaddingInfo.mk 9000 (-1))).
    reflexivity.
Defined.

Lemma default_padding_keeps_or_shrinks_witness :
  PaddingInfo.get_default_padding (PaddingInfo.mk 8000 92000) <= 8000
  /\ 4096 < 8000 - PaddingInfo.get_default_padding (PaddingInfo.mk 8000 92000)
  /\ PaddingInfo.get_default_padding (PaddingInfo.mk 8000 92000) <> 8000.
Proof.
  destruct (default_padding_keeps_or_shrinks 8000 100000
              (PaddingInfo.mk 8000 92000) eq_refl) as (Hiff & Hle & Hgap).
  split; [apply Hle; cbn; lia |].
  split; [apply Hgap; reflexivity |].
  intros E. apply Hiff in E. vm_compute in E. destruct E as [_ E].
  apply E. reflexivity.
Defined.

Lemma default_padding_stable_witness :
  PaddingInfo.__init__ 1484 93484 = Ok (PaddingInfo.mk 1484 92000)
  /\ PaddingInfo.get_default_padding (PaddingInfo.mk 1484 92000) = 1484.
Proof.
  apply (default_padding_stable 8000 100000 (PaddingInfo.mk 8000 92000)).
  reflexivity.
Defined.

(** X4: for every padding, negative or not, the default padding is
    non-decreasing in a known size. *)
Theorem default_padding_monotone_size (p s1 s2 : Z) :
  0 <= s1 <= s2 ->
  PaddingInfo.get_default_padding (PaddingInfo.mk p s1)
  <= PaddingInfo.get_default_padding (PaddingInfo.mk p s2).
Proof.
  intros H. unfold PaddingInfo.get_default_padding.
  rewrite !thresholds_known by lia. cbn [PaddingInfo.padding].
  cmp_cases; div_lia.
Qed.

Lemma default_padding_monotone_size_witness :
  PaddingInfo.get_default_padding (PaddingInfo.mk 6000 0)
  <= PaddingInfo.get_default_padding (PaddingInfo.mk 6000 40000).
Proof. apply (default_padding_monotone_size 6000 0 40000). lia. Defined.

(** X5: an unknown size gets the smallest default padding of all: no known
    size gives less, and a known size below 40 bytes gives the same. *)
Theorem default_padding_unknown_least (p s : Z) :
  0 <= s ->
  PaddingInfo.get_default_padding (PaddingInfo.mk p (-1))
  <= PaddingInfo.get_default_padding (PaddingInfo.mk p s)
  /\ (s < 40 ->
        PaddingInfo.get_default_padding (PaddingInfo.mk p s)
        = PaddingInfo.get_default_padding (PaddingInfo.mk p (-1))).
Proof.
  intros H. unfold PaddingInfo.get_default_padding.
  change (PaddingInfo.thresholds (PaddingInfo.mk p (-1))) with (5120, 1024).
  rewrite thresholds_known by lia.
  cbn [PaddingInfo.padding].
  split; [| intros Hs]; cmp_cases; div_lia.
Qed.

Lemma default_padding_unknown_least_witness :
  PaddingInfo.get_default_padding (PaddingInfo.mk 5125 (-1))
  <= PaddingInfo.get_default_padding (PaddingInfo.mk 5125 400)
  /\ PaddingInfo.get_default_padding (PaddingInfo.mk 5125 39)
     = PaddingInfo.get_default_padding (PaddingInfo.mk 5125 (-1)).
Proof.
  split.
  - apply (default_padding_unknown_least 5125 400). lia.
  - apply (default_padding_unknown_least 5125 39); lia.
Defined.

(** X6: a constructed object determines the arguments it was built from:
    two successful constructions of the same object had the same padding
    and the same filesize. *)
Theorem init_injective (p1 f1 p2 f2 : Z) (d : PaddingInfo.t) :
  PaddingInfo.__init__ p1 f1 = Ok d ->
  PaddingInfo.__init__ p2 f2 = Ok d ->
  p1 = p2 /\ f1 = f2.
Proof.
  intros H1 H2. apply init_Ok_inv in H1. apply init_Ok_inv in H2. lia.
Qed.

Lemma init_injective_witness : 30 = 30 /\ 100 = 100.
Proof.
  apply (init_injective 30 100 30 100 (PaddingInfo.mk 30 70)); reflexivity.
Defined.

(** ** The diagnostic representation *)

(** [%d] never prints the same text for two different integers. *)
Lemma format_d_inj (z1 z2 : Z) :
  PaddingInfo.format_d z1 = PaddingInfo.format_d z2 -> z1 = z2.
Proof.
  unfold PaddingInfo.format_d. intros E.
  assert (Hparse : forall z,
    DecimalString.NilZero.int_of_string
      (DecimalString.NilZero.string_of_int (Z.to_int z))
    = Some (Z.to_int z)).
  { intros z. apply DecimalString.NilZero.isi; destruct z; cbn;
      try discriminate; intros [= H];
      exact (DecimalPos.Unsigned.to_uint_nonnil _ H). }
  pose proof (Hparse z1) as H1. rewrite E, Hparse in H1.
  injection H1 as H1.
  rewrite <- (DecimalZ.of_to z1), <- (DecimalZ.of_to z2). congruence.
Qed.

(** A character that is neither a digit nor the minus sign is not printed
    by [%d]. *)
Lemma format_d_absent (c : Ascii.ascii) (z : Z) :
  absent c "-0123456789" -> absent c (PaddingInfo.format_d z).
Proof.
  cbn. intros (Hm & H0 & H1 & H2 & H3 & H4 & H5 & H6 & H7 & H8 & H9 & _).
  assert (Hu : forall u, absent c (DecimalString.NilEmpty.string_of_uint u))
    by (induction u; cbn; auto).
  assert (Hz : forall u, absent c (DecimalString.NilZero.string_of_uint u))
    by (intros u; destruct u; try apply Hu; cbn; auto).
  unfold PaddingInfo.format_d.
  destruct z; cbn [Z.to_int DecimalString.NilZero.string_of_int absent];
    auto.
Qed.

(** Two texts that agree up to and after the first occurrence of a
    separator agree part by part. *)
Lemma split_at_separator (c : Ascii.ascii) (a1 a2 r1 r2 : string) :
  absent c a1 -> absent c a2 ->
  a1 +:+ String c r1 = a2 +:+ String c r2 ->
  a1 = a2 /\ r1 = r2.
Proof.
  revert a2. induction a1 as [| x a1 IH]; intros [| y a2] H1 H2 E;
    cbn in H1, H2; unfold String.app in E; cbn in E; fold String.app in E.
  - injection E as E. auto.
  - injection E as Ec _. destruct H2 as [H2 _]. congruence.
  - injection E as Ec _. destruct H1 as [H1 _]. congruence.
  - injection E as Exy E. destruct H1 as [_ H1]. destruct H2 as [_ H2].
    destruct (IH a2 H1 H2 E) as [Ea Er]. subst. auto.
Qed.

(** X7: for a given class name the representation shows both fields
    without ambiguity: two objects print the same text if and only if
    they have the same size and the same padding. *)
Theorem repr_injective (type_name : string) (d1 d2 : PaddingInfo.t) :
  PaddingInfo.__repr__ type_name d1 = PaddingInfo.__repr__ type_name d2
  <-> d1 = d2.
Proof.
  split; [| intros ->; reflexivity].
  destruct d1 as [p1 s1], d2 as [p2 s2].
  unfold PaddingInfo.__repr__. cbn [PaddingInfo.size PaddingInfo.padding].
  intros E.
  apply (inj (String.app "<")) in E.
  apply (inj (String.app type_name)) in E.
  apply (inj (String.app " size=")) in E.
  change (" padding=" +:+ PaddingInfo.format_d p1 +:+ ">")
    with (String " "%char ("padding=" +:+ PaddingInfo.format_d p1 +:+ ">")) in E.
  change (" padding=" +:+ PaddingInfo.format_d p2 +:+ ">")
    with (String " "%char ("padding=" +:+ PaddingInfo.format_d p2 +:+ ">")) in E.
  apply split_at_separator in E;
    try (apply format_d_absent; cbn; repeat split; discriminate).
  destruct E as [Es E]. apply format_d_inj in Es.
  apply (inj (String.app "padding=")) in E.
  apply split_at_separator in E;
    try (apply format_d_absent; cbn; repeat split; discriminate).
  destruct E as [Ep _]. apply format_d_inj in Ep. subst. reflexivity.
Qed.

Lemma repr_injective_witness :
  PaddingInfo.__repr__ "PaddingInfo" (PaddingInfo.mk (-12) 3)
  = "<PaddingInfo size=3 padding=-12>"
  /\ PaddingInfo.__repr__ "PaddingInfo" (PaddingInfo.mk 1 23)
     <> PaddingInfo.__repr__ "PaddingInfo" (PaddingInfo.mk 12 3).
Proof.
  split; [reflexivity |].
  intros E.
  apply (repr_injective "PaddingInfo" (PaddingInfo.mk 1 23)
           (PaddingInfo.mk 12 3)) in E.
  discriminate E.
Defined.

(** ** The callback contract *)

(** X8: the docstring asks a callback for an amount >= 0.  On a constructed
    object both the built-in default (no callback) and the docstring's
    example callback return, without raising, the same amount, and it is
    >= 0. *)
Theorem get_padding_default_contract
    (padding filesize : Z) (d : PaddingInfo.t) :
  PaddingInfo.__init__ padding filesize = Ok d ->
  exists r,
    PaddingInfo._get_padding d None = Ok r
    /\ PaddingInfo._get_padding d (Some PaddingInfo.my_callback) = Ok r
    /\ 0 <= r.
Proof.
  intros Hd. exists (PaddingInfo.get_default_padding d).
  split; [reflexivity |]. split; [reflexivity |].
  pose proof (thresholds_window _ _ _ Hd) as (Hl & Hw).
  unfold PaddingInfo.get_default_padding.
  destruct (PaddingInfo.thresholds d) as [high low]. cbn [fst snd] in *.
  cmp_cases; lia.
Qed.

Lemma get_padding_default_contract_witness :
  exists r,
    PaddingInfo._get_padding (PaddingInfo.mk (-300) 1300) None = Ok r
    /\ PaddingInfo._get_padding (PaddingInfo.mk (-300) 1300)
         (Some PaddingInfo.my_callback) = Ok r
    /\ 0 <= r.
Proof.
  apply (get_padding_default_contract (-300) 1000
           (PaddingInfo.mk (-300) 1300)).
  reflexivity.
Defined.
